(** * heroku-redis-api: the Redis client factory and the Express middleware set

  A shallow embedding of the two modules of the repository:

  - [RedisClient]: the connection-options builder [redisOptions] with its
    reconnect policy [retry_strategy];
  - [Middleware]: [forceDomainSSL], [unless], [middlewareSecurity],
    [skipMap] and [whitelistIp], written in a small state-and-exception
    monad over the Express response object.

  Conventions of the embedding.

  - [process.env] and [req.headers] are JavaScript objects used as maps
    from names to strings: [gmap string string].  A missing entry reads
    as [undefined], so a value read from them is an [option string].
  - JavaScript numbers handed to the reconnect policy (attempt counter,
    milliseconds) are integers: [Z].
  - JavaScript strings are sequences of code units; the embedding uses
    [string], whose units are 8-bit.  None of the code looks inside a
    unit above 127. *)

From Stdlib Require Import ZArith Ascii String List Bool Lia.
From stdpp Require Import base option strings list gmap.

Open Scope string_scope.

(** ** JavaScript values that are either [undefined] or a string *)

Module JS.

(** [a === b] and [a !== b] on values that are [undefined] or a string. *)
Definition strict_eq (a b : option string) : bool := bool_decide (a = b).
Definition strict_ne (a b : option string) : bool := negb (strict_eq a b).

(** Truthiness: [undefined] and the empty string are falsy. *)
Definition truthy (a : option string) : bool :=
  match a with
  | None => false
  | Some s => negb (String.eqb s "")
  end.

(** [a || b]. *)
Definition or (a b : option string) : option string :=
  if truthy a then a else b.

(** A value substituted in a template literal, [`${a}`]. *)
Definition template (a : option string) : string :=
  match a with
  | None => "undefined"
  | Some s => s
  end.

(** Destructuring with a default, [const { X = d } = obj]: the default is
    taken only when the property is [undefined]. *)
Definition destructure (obj : gmap string string) (x d : string) : string :=
  match obj !! x with
  | None => d
  | Some s => s
  end.

End JS.

(** ** src/redisClient.js: the Redis client *)

Module RedisClient.

(** The error object node_redis hands to the policy; [code] is
    [undefined] for errors that carry none. *)
Record redis_error := {
  code : option string;
  message : string
}.

(** The argument of [retry_strategy].  [error] is [None] when
    [options.error] is [null] or [undefined]. *)
Record retry_options := {
  attempt : Z;
  total_retry_time : Z;
  error : option redis_error;
  times_connected : Z
}.

(** What [retry_strategy] returns: an [Error] object (node_redis gives up
    and reports it), [undefined] (node_redis gives up without an error of
    the policy's own), or a number of milliseconds to wait. *)
Inductive retry_result :=
| RetError (msg : string)
| RetUndefined
| RetNumber (ms : Z).

Definition retry_strategy (options : retry_options) : retry_result :=
  if match error options with
     | Some e => JS.strict_eq (code e) (Some "ECONNREFUSED")
     | None => false
     end
  then RetError "The server refused the connection"
  else if (1000 * 60 * 60 <? total_retry_time options)%Z
  then RetError "Retry time exhausted"
  else if (10 <? attempt options)%Z
  then RetUndefined
  else RetNumber (Z.min (attempt options * 100) 3000).

(** The most recent error is a refused connection. *)
Definition refused (options : retry_options) : Prop :=
  exists e, error options = Some e /\ code e = Some "ECONNREFUSED".

(** Properties of the options object handed to [redis.createClient]. *)
Record tls_options := {
  cert : string;
  ca : list string
}.

Inductive option_value :=
| OBool (b : bool)
| OStr (s : string)
| ORetry (f : retry_options -> retry_result)
| OTls (t : tls_options).

Section Env.

Variable process_env : gmap string string.

Definition REDIS_PASSWORD : string := JS.destructure process_env "REDIS_PASSWORD" "".
Definition REDIS_URL : option string := process_env !! "REDIS_URL".
Definition REDIS_CA : string := JS.destructure process_env "REDIS_CA" "".

(** The block [options.tls = { cert: REDIS_CA, ca: [ REDIS_CA ] }]. *)
Definition assign_tls (options : gmap string option_value) : gmap string option_value :=
  <["tls" := OTls {| cert := REDIS_CA; ca := [REDIS_CA] |}]> options.

Definition redisOptions : gmap string option_value :=
  let options : gmap string option_value :=
    {[ "no_ready_check" := OBool true;
       "enable_offline_queue" := OBool true;
       "retry_strategy" := ORetry retry_strategy ]} in
  let options :=
    if negb (String.eqb REDIS_PASSWORD "")
    then <["password" := OStr REDIS_PASSWORD]> options
    else options in
  let options :=
    if negb (String.eqb REDIS_CA "") then assign_tls options else options in
  let options :=
    if negb (String.eqb REDIS_CA "") then assign_tls options else options in
  options.

(** The builder as the specification asks for it: the TLS block
    collapsed to a single assignment. *)
Definition redisOptions_single_tls : gmap string option_value :=
  let options : gmap string option_value :=
    {[ "no_ready_check" := OBool true;
       "enable_offline_queue" := OBool true;
       "retry_strategy" := ORetry retry_strategy ]} in
  let options :=
    if negb (String.eqb REDIS_PASSWORD "")
    then <["password" := OStr REDIS_PASSWORD]> options
    else options in
  let options :=
    if negb (String.eqb REDIS_CA "") then assign_tls options else options in
  options.

End Env.

End RedisClient.

(** ** The string built-ins the code calls *)

Module JSString.

(** [s.split(sep)] for a separator of one unit: the pieces between the
    occurrences of [sep], in order; a string without [sep] is one piece. *)
Fixpoint split (sep : ascii) (s : string) : list string :=
  match s with
  | EmptyString => [""]
  | String c s' =>
      if Ascii.eqb c sep then "" :: split sep s'
      else match split sep s' with
           | piece :: pieces => String c piece :: pieces
           | [] => [String c ""]
           end
  end.

(** [pieces.join(sep)]. *)
Fixpoint join (sep : ascii) (pieces : list string) : string :=
  match pieces with
  | [] => ""
  | [piece] => piece
  | piece :: rest => piece ++ String sep (join sep rest)
  end.

(** [sep] occurs in [s]. *)
Fixpoint contains (sep : ascii) (s : string) : bool :=
  match s with
  | EmptyString => false
  | String c s' => Ascii.eqb c sep || contains sep s'
  end.

(** [list.includes(v)] on a list of strings, for [v] a string or
    [undefined]: no string equals [undefined]. *)
Definition includes (l : list string) (v : option string) : bool :=
  match v with
  | Some s => existsb (String.eqb s) l
  | None => false
  end.

(** How a regular expression with the [i] flag (and without [u]) compares
    units: by their upper-case form.  A unit above 127 never takes the form
    of an ASCII unit, and is left as it is. *)
Definition canonicalize (c : ascii) : ascii :=
  let n := nat_of_ascii c in
  if (97 <=? n)%nat && (n <=? 122)%nat then ascii_of_nat (n - 32) else c.

(** A run of literal characters followed by [$], tried where [s] starts;
    without the [m] flag [$] holds at the end of the input only. *)
Fixpoint match_here (pat : list ascii) (s : string) : bool :=
  match pat, s with
  | [], EmptyString => true
  | [], String _ _ => false
  | _ :: _, EmptyString => false
  | p :: pat', String c s' =>
      Ascii.eqb (canonicalize c) (canonicalize p) && match_here pat' s'
  end.

(** [s.match(re)] is not [null]: the pattern is tried at every position,
    from the left. *)
Fixpoint search (pat : list ascii) (s : string) : bool :=
  match_here pat s ||
  match s with
  | EmptyString => false
  | String _ s' => search pat s'
  end.

(** [s.match(/\.map$/i)] is not [null]. *)
Definition match_dot_map (s : string) : bool :=
  search ["."; "m"; "a"; "p"]%char s.

(** Lower case of an ASCII letter, for stating what the pattern accepts. *)
Definition lower (c : ascii) : ascii :=
  let n := nat_of_ascii c in
  if (65 <=? n)%nat && (n <=? 90)%nat then ascii_of_nat (n + 32) else c.

Fixpoint to_lower (s : string) : string :=
  match s with
  | EmptyString => EmptyString
  | String c s' => String (lower c) (to_lower s')
  end.

(** [s] ends in [".map"], whatever the case of its letters. *)
Definition ends_in_dot_map (s : string) : Prop :=
  exists pre suf, s = pre ++ suf /\ to_lower suf = ".map".

End JSString.

(** ** The Express objects the middleware works on *)

Module Express.

(** The request, read-only to the middleware.  [headers] has lower-case
    names, as Node stores them; [ip] is [undefined] when the socket has no
    remote address. *)
Record request := {
  headers : gmap string string;
  originalUrl : string;
  path : string;
  ip : option string
}.

(** [req.header(name)], also [req.get(name)], for a lower-case [name] other
    than the referrer. *)
Definition req_header (req : request) (name : string) : option string :=
  headers req !! name.

Definition req_get := req_header.

(** What was sent to the client: a body, or the page Express writes for a
    redirect to [url]. *)
Inductive payload :=
| Body (s : string)
| Redirect (url : string).

(** The response object, the handler chain and the log.  [reply] is [None]
    until the response is sent; [nextCalls] counts the calls of [next].
    [resHeaders] holds the headers the handlers set with [res.set], under
    their lower-case names, as Node keeps them: header names do not
    distinguish case.  The headers Express computes when it sends
    (Content-Type, Content-Length, ETag, and Location and Vary for a
    redirect) belong to the [reply] and are not listed. *)
Record world := {
  statusCode : Z;
  resHeaders : gmap string string;
  reply : option payload;
  nextCalls : nat;
  logged : list string
}.

(** A response nothing has touched: Node's status code defaults to 200. *)
Definition fresh : world :=
  {| statusCode := 200; resHeaders := ∅; reply := None; nextCalls := 0; logged := [] |}.

Definition headersSent (w : world) : bool :=
  match reply w with
  | Some _ => true
  | None => false
  end.

Definition set_statusCode (c : Z) (w : world) : world :=
  {| statusCode := c; resHeaders := resHeaders w; reply := reply w;
     nextCalls := nextCalls w; logged := logged w |}.

Definition set_resHeader (k v : string) (w : world) : world :=
  {| statusCode := statusCode w;
     resHeaders := <[JSString.to_lower k := v]> (resHeaders w);
     reply := reply w; nextCalls := nextCalls w; logged := logged w |}.

(** [res.get(name)]: the header set under [name], in any case. *)
Definition res_get (w : world) (name : string) : option string :=
  resHeaders w !! JSString.to_lower name.

Definition set_reply (p : payload) (w : world) : world :=
  {| statusCode := statusCode w; resHeaders := resHeaders w; reply := Some p;
     nextCalls := nextCalls w; logged := logged w |}.

Definition count_next (w : world) : world :=
  {| statusCode := statusCode w; resHeaders := resHeaders w; reply := reply w;
     nextCalls := S (nextCalls w); logged := logged w |}.

Definition add_log (msg : string) (w : world) : world :=
  {| statusCode := statusCode w; resHeaders := resHeaders w; reply := reply w;
     nextCalls := nextCalls w; logged := logged w ++ [msg] |}.

(** Writing a header or a body on a response already sent throws. *)
Inductive exn :=
| ERR_HTTP_HEADERS_SENT.

Inductive outcome (A : Type) :=
| Ok (a : A) (w : world)
| Throw (e : exn) (w : world).

Arguments Ok {A} a w.
Arguments Throw {A} e w.

(** Computations over the world that may throw. *)
Definition M (A : Type) : Type := world -> outcome A.

Definition ret {A : Type} (a : A) : M A := fun w => Ok a w.

Definition bind {A B : Type} (m : M A) (k : A -> M B) : M B :=
  fun w =>
    match m w with
    | Ok a w' => k a w'
    | Throw e w' => Throw e w'
    end.

Declare Scope express_scope.
Delimit Scope express_scope with express.
Notation "m ;; k" := (bind m (fun _ => k))
  (at level 100, k at level 200, right associativity) : express_scope.
Open Scope express_scope.

(** [res.status(code)]: sets the status code, never throws. *)
Definition res_status (c : Z) : M unit :=
  fun w => Ok tt (set_statusCode c w).

(** [res.set(field, value)]. *)
Definition res_set (k v : string) : M unit :=
  fun w => if headersSent w then Throw ERR_HTTP_HEADERS_SENT w
           else Ok tt (set_resHeader k v w).

(** [res.send(body)]: the body goes out under the status code the response
    has.  [send] sets no status of its own, with one exception that is not
    modelled: on a status 2xx, for a conditional GET or HEAD whose validators
    match the answer, Express sends 304 instead. *)
Definition res_send (body : string) : M unit :=
  fun w => if headersSent w then Throw ERR_HTTP_HEADERS_SENT w
           else Ok tt (set_reply (Body body) w).

(** [res.redirect(status, url)]: sets the status and sends the page Express
    writes for a redirect to [url], with the Location header. *)
Definition res_redirect (status : Z) (url : string) : M unit :=
  fun w => if headersSent w then Throw ERR_HTTP_HEADERS_SENT w
           else Ok tt (set_reply (Redirect url) (set_statusCode status w)).

(** [next()]: hands the request to the rest of the chain. *)
Definition next : M unit :=
  fun w => Ok tt (count_next w).

(** [logger.info(msg)]. *)
Definition logger_info (msg : string) : M unit :=
  fun w => Ok tt (add_log msg w).

End Express.

(** ** The middleware module: second part of the source file *)

Module Middleware.

Import Express.

Section Env.

Variable process_env : gmap string string.

Definition APP_DOMAIN : option string := process_env !! "APP_DOMAIN".
Definition NODE_ENV : option string := process_env !! "NODE_ENV".
Definition PUBLIC_DOMAIN : option string := process_env !! "PUBLIC_DOMAIN".
Definition WHITELIST_IP : string := JS.destructure process_env "WHITELIST_IP" "".
Definition FORWARDED_IP_HEADER : string := "x-forwarded-for".

Definition isAppDomainOnProduction (req : request) : bool :=
  JS.strict_ne APP_DOMAIN (Some "") &&
  JS.strict_ne PUBLIC_DOMAIN (Some "") &&
  JS.strict_eq (headers req !! "host") APP_DOMAIN.

Definition isNonSecurePublicDomainOnProduction (req : request) : bool :=
  JS.strict_ne PUBLIC_DOMAIN (Some "") &&
  JS.strict_eq (headers req !! "host") PUBLIC_DOMAIN &&
  JS.strict_ne (req_header req "x-forwarded-proto") (Some "https").

(** The [switch] compares [NODE_ENV] with each label by [===], in order. *)
Definition forceDomainSSL (req : request) : M unit :=
  if JS.strict_eq NODE_ENV (Some "local") then
    next
  else if JS.strict_eq NODE_ENV (Some "review")
          || JS.strict_eq NODE_ENV (Some "staging") then
    if JS.strict_ne (req_header req "x-forwarded-proto") (Some "https") then
      res_redirect 302
        ("https://" ++ JS.template (headers req !! "host") ++ originalUrl req)
    else
      next
  else if JS.strict_eq NODE_ENV (Some "production") then
    if isAppDomainOnProduction req then
      res_redirect 302
        ("https://" ++ JS.template PUBLIC_DOMAIN ++ originalUrl req)
    else if isNonSecurePublicDomainOnProduction req then
      logger_info ("Insecure request to " ++ JS.template PUBLIC_DOMAIN) ;;
      res_redirect 302
        ("https://" ++ JS.template (headers req !! "host") ++ originalUrl req)
    else next
  else
    next.

Definition unless (middleware : request -> M unit) (paths : list string)
    (req : request) : M unit :=
  let pathCheck := existsb (fun p => String.eqb p (path req)) paths in
  if pathCheck then next else middleware req.

Definition middlewareSecurity (req : request) : M unit :=
  res_set "X-XSS-Protection" "1; mode=block" ;;
  next.

Definition skipMap (req : request) : M unit :=
  if JSString.match_dot_map (path req) then
    res_send ""
  else
    next.

(** The local constant [request_ip] of [whitelistIp]. *)
Definition request_ip (req : request) : option string :=
  JS.or (req_get req FORWARDED_IP_HEADER) (ip req).

Definition whitelistIp (req : request) : M unit :=
  if String.eqb WHITELIST_IP "" then
    next
  else if JSString.includes (JSString.split "," WHITELIST_IP) (request_ip req) then
    next
  else
    res_status 403 ;;
    res_send "Forbidden: Access is denied.".

End Env.

End Middleware.

(** ** Sample inputs, for the examples below *)

Module Samples.

Import RedisClient Express.

(** Inputs of the reconnect policy. *)
Definition econnrefused : redis_error :=
  {| code := Some "ECONNREFUSED"; message := "connect ECONNREFUSED 127.0.0.1:6379" |}.

Definition etimedout : redis_error :=
  {| code := Some "ETIMEDOUT"; message := "connect ETIMEDOUT" |}.

Definition retry_input (n t : Z) (e : option redis_error) : retry_options :=
  {| attempt := n; total_retry_time := t; error := e; times_connected := 0 |}.

(** A direct request with, at most, a host header; the original URL is the
    path followed by the query string. *)
Definition get (host : option string) (path query : string)
    (ip : option string) : request :=
  {| headers := match host with
                | Some h => {[ "host" := h ]}
                | None => ∅
                end;
     originalUrl := path ++ query; path := path; ip := ip |}.

Definition production_env : gmap string string :=
  {[ "NODE_ENV" := "production";
     "APP_DOMAIN" := "api.herokuapp.com";
     "PUBLIC_DOMAIN" := "api.example.com" ]}.

(** A request that came through a proxy: it carries the forwarded header. *)
Definition forwarded (xff : string) (ip : option string) : request :=
  {| headers := {[ "host" := "api.example.com"; "x-forwarded-for" := xff ]};
     originalUrl := "/v1/keys"; path := "/v1/keys"; ip := ip |}.

End Samples.

(** ** What a middleware did with a request *)

Module Handling.

Import Express.

(** The request went on to the next handler, once, and nothing was sent. *)
Definition continued (w w' : world) : Prop :=
  reply w' = None /\ nextCalls w' = S (nextCalls w).

(** A response was sent and the next handler was not called. *)
Definition answered (w w' : world) : Prop :=
  reply w' <> None /\ nextCalls w' = nextCalls w.

(** The middleware returned normally, and did one of the two. *)
Definition handled (m : M unit) (w : world) : Prop :=
  exists w', m w = Ok tt w' /\ (continued w w' \/ answered w w').

(** The response [whitelistIp] gives to a request it turns away. *)
Definition forbidden (w : world) : world :=
  set_reply (Body "Forbidden: Access is denied.") (set_statusCode 403 w).

(** The response of a redirect to [url]. *)
Definition redirected (url : string) (w : world) : world :=
  set_reply (Redirect url) (set_statusCode 302 w).

End Handling.

(** ** More sample inputs *)

Module MoreSamples.

Import RedisClient Express.

(** A request with a host header and the protocol the proxy saw. *)
Definition via_proxy (host proto url : string) : request :=
  {| headers := {[ "host" := host; "x-forwarded-proto" := proto ]};
     originalUrl := url; path := url; ip := None |}.

(** A request with a forwarded header, or none, and a connection IP. *)
Definition from (xff : option string) (ip : option string) : request :=
  {| headers := match xff with
                | Some v => {[ "x-forwarded-for" := v ]}
                | None => ∅
                end;
     originalUrl := "/"; path := "/"; ip := ip |}.

(** A middleware that answers every request with "ok". *)
Definition answer_ok (req : request) : M unit := res_send "ok".

End MoreSamples.

(** * Properties *)

(** ** Strict equality and truthiness *)

Module JSFacts.

Lemma strict_eq_true a b : JS.strict_eq a b = true <-> a = b.
Proof. unfold JS.strict_eq. apply bool_decide_eq_true. Qed.

Lemma strict_eq_false a b : JS.strict_eq a b = false <-> a <> b.
Proof. unfold JS.strict_eq. apply bool_decide_eq_false. Qed.

Lemma strict_ne_true a b : JS.strict_ne a b = true <-> a <> b.
Proof. unfold JS.strict_ne. rewrite negb_true_iff. apply strict_eq_false. Qed.

Lemma strict_ne_false a b : JS.strict_ne a b = false <-> a = b.
Proof. unfold JS.strict_ne. rewrite negb_false_iff. apply strict_eq_true. Qed.

Lemma strict_eq_refl a : JS.strict_eq a a = true.
Proof. now apply strict_eq_true. Qed.

Lemma truthy_Some s : JS.truthy (Some s) = true <-> s <> "".
Proof.
  simpl. rewrite negb_true_iff. split.
  - intros H ->. discriminate H.
  - intros H. destruct (String.eqb_spec s ""); congruence.
Qed.

Lemma or_truthy a b : JS.truthy a = true -> JS.or a b = a.
Proof. unfold JS.or. now intros ->. Qed.

Lemma or_falsy a b : JS.truthy a = false -> JS.or a b = b.
Proof. unfold JS.or. now intros ->. Qed.

Lemma destructure_Some obj x d s : obj !! x = Some s -> JS.destructure obj x d = s.
Proof. unfold JS.destructure. now intros ->. Qed.

Lemma destructure_None obj x d : obj !! x = None -> JS.destructure obj x d = d.
Proof. unfold JS.destructure. now intros ->. Qed.

End JSFacts.

(** ** The reconnect policy and the options builder *)

Module RedisClientFacts.

Import RedisClient Samples.

Open Scope Z_scope.

(** The first test of [retry_strategy] decides [refused]. *)
Lemma refused_test options :
  match error options with
  | Some e => JS.strict_eq (code e) (Some "ECONNREFUSED")
  | None => false
  end = true <-> refused options.
Proof.
  unfold refused. destruct (error options) as [e|].
  - rewrite JSFacts.strict_eq_true. split.
    + intros H. now exists e.
    + intros (e' & [= <-] & H). exact H.
  - split; [discriminate | intros (e & [=] & _)].
Qed.

Lemma not_refused_test options :
  ~ refused options ->
  match error options with
  | Some e => JS.strict_eq (code e) (Some "ECONNREFUSED")
  | None => false
  end = false.
Proof.
  intros H. apply not_true_is_false. now rewrite refused_test.
Qed.

Lemma one_hour : 1000 * 60 * 60 = 3600000.
Proof. reflexivity. Qed.

(** The four outcomes of the policy, by the tests that lead to them. *)
Lemma retry_strategy_refused options :
  refused options ->
  retry_strategy options = RetError "The server refused the connection".
Proof.
  intros H. apply refused_test in H. unfold retry_strategy. now rewrite H.
Qed.

Lemma retry_strategy_exhausted options :
  ~ refused options -> 3600000 < total_retry_time options ->
  retry_strategy options = RetError "Retry time exhausted".
Proof.
  intros H Ht. unfold retry_strategy.
  rewrite (not_refused_test _ H), one_hour.
  now apply Z.ltb_lt in Ht as ->.
Qed.

Lemma retry_strategy_stop options :
  ~ refused options -> total_retry_time options <= 3600000 ->
  10 < attempt options ->
  retry_strategy options = RetUndefined.
Proof.
  intros H Ht Ha. unfold retry_strategy.
  rewrite (not_refused_test _ H), one_hour.
  apply Z.ltb_ge in Ht as ->. now apply Z.ltb_lt in Ha as ->.
Qed.

Lemma retry_strategy_delay options :
  ~ refused options -> total_retry_time options <= 3600000 ->
  attempt options <= 10 ->
  retry_strategy options = RetNumber (Z.min (attempt options * 100) 3000).
Proof.
  intros H Ht Ha. unfold retry_strategy.
  rewrite (not_refused_test _ H), one_hour.
  apply Z.ltb_ge in Ht as ->. now apply Z.ltb_ge in Ha as ->.
Qed.

Lemma refused_econnrefused n t : refused (retry_input n t (Some econnrefused)).
Proof. exists econnrefused. now split. Qed.

Lemma not_refused_etimedout n t : ~ refused (retry_input n t (Some etimedout)).
Proof. intros (e & [= <-] & [=]). Qed.

Lemma not_refused_no_error n t : ~ refused (retry_input n t None).
Proof. intros (e & [=] & _). Qed.

(** C1, as stated, fails: on attempt 11 with a refused connection the policy
    returns the fatal error of its first test, not [undefined]. *)
Lemma attempt_11_refused_is_not_stop :
  attempt (retry_input 11 5000 (Some econnrefused)) = 11 /\
  retry_strategy (retry_input 11 5000 (Some econnrefused))
    = RetError "The server refused the connection" /\
  retry_strategy (retry_input 11 5000 (Some econnrefused)) <> RetUndefined.
Proof. repeat split. discriminate. Qed.

(** Likewise on attempt 11 with more than an hour of cumulative retry time. *)
Lemma attempt_11_exhausted_is_not_stop :
  retry_strategy (retry_input 11 3600001 (Some etimedout))
    = RetError "Retry time exhausted".
Proof. reflexivity. Qed.

(** C1 (amended): on attempt 11, and on every attempt count above 10, the
    policy returns [undefined] (stop silently: no delay, no fatal error)
    when the error is not a refused connection and the cumulative retry time
    is at most one hour; with a refused connection, or with more than an hour
    of cumulative retry time, it returns the fatal error on that attempt too. *)
Theorem stop_after_ten_attempts options :
  10 < attempt options ->
  (~ refused options -> total_retry_time options <= 3600000 ->
   retry_strategy options = RetUndefined) /\
  (refused options ->
   retry_strategy options = RetError "The server refused the connection") /\
  (~ refused options -> 3600000 < total_retry_time options ->
   retry_strategy options = RetError "Retry time exhausted").
Proof.
  intros Ha. repeat split.
  - intros H Ht. now apply retry_strategy_stop.
  - apply retry_strategy_refused.
  - apply retry_strategy_exhausted.
Qed.

Lemma stop_after_ten_attempts_witness :
  10 < attempt (retry_input 11 5000 (Some etimedout)) /\
  retry_strategy (retry_input 11 5000 (Some etimedout)) = RetUndefined.
Proof.
  split; [reflexivity |].
  apply (stop_after_ten_attempts (retry_input 11 5000 (Some etimedout)));
    [reflexivity | apply not_refused_etimedout | discriminate].
Defined.

(** C2: when the most recent error has code ECONNREFUSED the policy returns
    the fatal error "The server refused the connection", whatever the attempt
    count and the cumulative retry time: the test comes before the two
    others, so neither "Retry time exhausted" nor [undefined] is returned. *)
Theorem refused_connection_is_fatal options :
  refused options ->
  retry_strategy options = RetError "The server refused the connection" /\
  retry_strategy options <> RetError "Retry time exhausted" /\
  retry_strategy options <> RetUndefined.
Proof.
  intros H. rewrite (retry_strategy_refused _ H). repeat split; discriminate.
Qed.

Lemma refused_connection_is_fatal_witness :
  refused (retry_input 42 7200000 (Some econnrefused)) /\
  retry_strategy (retry_input 42 7200000 (Some econnrefused))
    = RetError "The server refused the connection".
Proof.
  split; [apply refused_econnrefused |].
  apply (refused_connection_is_fatal (retry_input 42 7200000 (Some econnrefused))).
  apply refused_econnrefused.
Defined.

(** C3: for attempt counts 1 to 10, an error that is not a refused connection
    and at most one hour of cumulative retry time, the policy returns the
    delay min(attempt * 100, 3000) ms; between two such inputs the delay does
    not decrease when the attempt count grows, and it never exceeds 3000. *)
Theorem backoff_delay options :
  1 <= attempt options <= 10 ->
  ~ refused options ->
  total_retry_time options <= 3600000 ->
  retry_strategy options = RetNumber (Z.min (attempt options * 100) 3000) /\
  Z.min (attempt options * 100) 3000 <= 3000 /\
  forall options',
    1 <= attempt options' <= 10 ->
    ~ refused options' ->
    total_retry_time options' <= 3600000 ->
    attempt options <= attempt options' ->
    exists d d',
      retry_strategy options = RetNumber d /\
      retry_strategy options' = RetNumber d' /\
      d <= d'.
Proof.
  intros Ha H Ht. split; [| split].
  - apply retry_strategy_delay; [assumption | assumption | lia].
  - apply Z.le_min_r.
  - intros options' Ha' H' Ht' Hle.
    exists (Z.min (attempt options * 100) 3000),
           (Z.min (attempt options' * 100) 3000).
    split; [| split].
    + apply retry_strategy_delay; [assumption | assumption | lia].
    + apply retry_strategy_delay; [assumption | assumption | lia].
    + apply Z.min_le_compat_r. lia.
Qed.

Lemma backoff_delay_witness :
  1 <= attempt (retry_input 7 1200 None) <= 10 /\
  retry_strategy (retry_input 7 1200 None) = RetNumber 700.
Proof.
  split; [simpl; lia |].
  apply (backoff_delay (retry_input 7 1200 None));
    [simpl; lia | apply not_refused_no_error | simpl; lia].
Defined.

(** C4: with an error that is not a refused connection and a cumulative retry
    time strictly above 3,600,000 ms, the policy returns the fatal error
    "Retry time exhausted", whatever the attempt count. *)
Theorem retry_time_exhausted_is_fatal options :
  ~ refused options ->
  3600000 < total_retry_time options ->
  retry_strategy options = RetError "Retry time exhausted".
Proof. apply retry_strategy_exhausted. Qed.

Lemma retry_time_exhausted_is_fatal_witness :
  3600000 < total_retry_time (retry_input 3 3600001 (Some etimedout)) /\
  retry_strategy (retry_input 3 3600001 (Some etimedout))
    = RetError "Retry time exhausted".
Proof.
  split; [reflexivity |].
  apply (retry_time_exhausted_is_fatal (retry_input 3 3600001 (Some etimedout)));
    [apply not_refused_etimedout | reflexivity].
Defined.

(** One hour is the last cumulative time that is not fatal. *)
Lemma retry_time_one_hour_is_not_fatal :
  retry_strategy (retry_input 3 3600000 (Some etimedout)) = RetNumber 300.
Proof. reflexivity. Qed.

Close Scope Z_scope.

(** Assigning the TLS block over itself changes nothing. *)
Lemma assign_tls_twice env (options : gmap string option_value) :
  assign_tls env (assign_tls env options) = assign_tls env options.
Proof. unfold assign_tls. apply insert_insert_eq. Qed.

(** C9: the builder assigns the TLS block twice, under the same test and
    with the same content; the builder with a single assignment returns the
    same options object, for every environment. *)
Theorem redisOptions_tls_duplicate_is_dead env :
  redisOptions env = redisOptions_single_tls env.
Proof.
  unfold redisOptions, redisOptions_single_tls.
  destruct (negb (String.eqb (REDIS_CA env) "")); [| reflexivity].
  apply assign_tls_twice.
Qed.

(** What the TLS property holds after the builder has run. *)
Lemma redisOptions_tls env :
  redisOptions env !! "tls" =
    if String.eqb (REDIS_CA env) "" then None
    else Some (OTls {| cert := REDIS_CA env; ca := [REDIS_CA env] |}).
Proof.
  unfold redisOptions, assign_tls.
  destruct (String.eqb (REDIS_CA env) ""); simpl.
  - destruct (negb (String.eqb (REDIS_PASSWORD env) "")); by simplify_map_eq.
  - apply lookup_insert_eq.
Qed.

End RedisClientFacts.

(** ** The string built-ins *)

Module JSStringFacts.

Import JSString.

Lemma append_empty s : "" ++ s = s.
Proof. reflexivity. Qed.

Lemma append_cons c s t : String c s ++ t = String c (s ++ t).
Proof. reflexivity. Qed.

Lemma split_not_nil sep s : split sep s <> [].
Proof.
  destruct s as [|c s]; simpl; [discriminate |].
  destruct (Ascii.eqb c sep); [discriminate |].
  destruct (split sep s); discriminate.
Qed.

(** Nothing is lost or trimmed: the pieces, put back together with the
    separator between them, give the string again. *)
Lemma join_split sep s : join sep (split sep s) = s.
Proof.
  induction s as [|c s IH]; simpl; [reflexivity |].
  destruct (Ascii.eqb_spec c sep) as [-> | Hc].
  - pose proof (split_not_nil sep s) as Hnil.
    destruct (split sep s) as [|piece pieces]; [contradiction |].
    simpl in *. now rewrite IH.
  - pose proof (split_not_nil sep s) as Hnil.
    destruct (split sep s) as [|piece pieces]; [contradiction |].
    destruct pieces as [|piece' pieces]; simpl in *; now rewrite <- IH.
Qed.

(** The separator is the only cut: no piece contains it. *)
Lemma split_pieces_free sep s :
  Forall (fun piece => contains sep piece = false) (split sep s).
Proof.
  induction s as [|c s IH]; simpl.
  - now constructor.
  - destruct (Ascii.eqb_spec c sep) as [-> | Hc].
    + now constructor.
    + destruct (split sep s) as [|piece pieces].
      * constructor; [| constructor]. simpl.
        now apply Ascii.eqb_neq in Hc as ->.
      * inversion IH as [|? ? Hp Hps]; subst. constructor; [| assumption].
        simpl. now apply Ascii.eqb_neq in Hc as ->.
Qed.

(** The two facts above determine [split]. *)
Lemma split_join sep pieces :
  pieces <> [] ->
  Forall (fun piece => contains sep piece = false) pieces ->
  split sep (join sep pieces) = pieces.
Proof.
  induction pieces as [|piece rest IH]; [contradiction |].
  intros _ Hfree. inversion Hfree as [|? ? Hp Hrest]; subst.
  destruct rest as [|piece' rest].
  - simpl. clear IH Hfree Hrest.
    induction piece as [|c piece IHp]; simpl; [reflexivity |].
    simpl in Hp. apply orb_false_iff in Hp as [-> Hp].
    now rewrite (IHp Hp).
  - specialize (IH ltac:(discriminate) Hrest).
    change (join sep (piece :: piece' :: rest))
      with (piece ++ String sep (join sep (piece' :: rest))).
    clear Hfree Hrest. revert IH.
    generalize (join sep (piece' :: rest)) as tail. intros tail IH.
    induction piece as [|c piece IHp].
    + rewrite append_empty. simpl. rewrite Ascii.eqb_refl. now rewrite IH.
    + rewrite append_cons. simpl in *.
      apply orb_false_iff in Hp as [-> Hp]. now rewrite (IHp Hp).
Qed.

Lemma includes_Some l s : includes l (Some s) = true <-> In s l.
Proof.
  simpl. rewrite existsb_exists. split.
  - intros (x & Hin & Heq). now apply String.eqb_eq in Heq as ->.
  - intros Hin. exists s. split; [assumption | apply String.eqb_refl].
Qed.

Lemma includes_undefined l : includes l None = false.
Proof. reflexivity. Qed.

(** [includes] finds its argument exactly when it is a string of the list. *)
Lemma includes_true l v :
  includes l v = true <-> exists s, v = Some s /\ In s l.
Proof.
  destruct v as [s|].
  - rewrite includes_Some. split.
    + intros H. now exists s.
    + now intros (s' & [= <-] & H).
  - split; [discriminate | now intros (s & [=] & _)].
Qed.

(** Case folding: both directions go through the other form. *)
Lemma canonicalize_lower c : canonicalize (lower c) = canonicalize c.
Proof. destruct c as [[] [] [] [] [] [] [] []]; reflexivity. Qed.

Lemma lower_canonicalize c : lower (canonicalize c) = lower c.
Proof. destruct c as [[] [] [] [] [] [] [] []]; reflexivity. Qed.

Lemma canonicalize_eq c p :
  lower p = p ->
  Ascii.eqb (canonicalize c) (canonicalize p) = true <-> lower c = p.
Proof.
  intros Hp. rewrite Ascii.eqb_eq. split.
  - intros H. rewrite <- Hp, <- (lower_canonicalize p), <- H.
    symmetry. apply lower_canonicalize.
  - intros <-. symmetry. apply canonicalize_lower.
Qed.

(** A lower-case pattern followed by [$] accepts the strings whose lower
    case is the pattern. *)
Lemma match_here_lower pat s :
  Forall (fun p => lower p = p) pat ->
  match_here pat s = true <-> to_lower s = string_of_list_ascii pat.
Proof.
  intros Hpat. revert s.
  induction Hpat as [|p pat Hp Hpat IH]; intros [|c s]; simpl;
    try (split; discriminate); [tauto |].
  rewrite andb_true_iff, (canonicalize_eq c p Hp), IH. split.
  - now intros [-> ->].
  - intros [= -> ->]. now split.
Qed.

(** The search succeeds exactly when some suffix is accepted. *)
Lemma search_suffix pat s :
  search pat s = true <->
  exists pre suf, s = pre ++ suf /\ match_here pat suf = true.
Proof.
  induction s as [|c s IH]; simpl.
  - rewrite orb_false_r. split.
    + intros H. now exists "", "".
    + intros ([|c pre] & suf & Heq & H).
      * rewrite append_empty in Heq. now subst.
      * rewrite append_cons in Heq. discriminate.
  - rewrite orb_true_iff, IH. split.
    + intros [H | (pre & suf & -> & H)].
      * now exists "", (String c s).
      * now exists (String c pre), suf.
    + intros ([|c' pre] & suf & Heq & H).
      * left. rewrite append_empty in Heq. now subst.
      * right. rewrite append_cons in Heq. injection Heq as -> ->.
        now exists pre, suf.
Qed.

(** The test of [skipMap] accepts the paths that end in ".map", in any
    case, and no other. *)
Lemma match_dot_map_true s : match_dot_map s = true <-> ends_in_dot_map s.
Proof.
  unfold match_dot_map, ends_in_dot_map. rewrite search_suffix.
  split; intros (pre & suf & Heq & H); exists pre, suf; split; try assumption.
  - apply match_here_lower in H; [exact H |]. repeat constructor.
  - apply match_here_lower; [repeat constructor | exact H].
Qed.

Lemma match_dot_map_false s : match_dot_map s = false <-> ~ ends_in_dot_map s.
Proof.
  rewrite <- match_dot_map_true. destruct (match_dot_map s); split;
    congruence.
Qed.

End JSStringFacts.

(** ** The middleware set *)

Module MiddlewareFacts.

Import Express Middleware Samples.

(** On a response not yet sent the response methods do not throw. *)
Lemma res_send_ok body w :
  headersSent w = false -> res_send body w = Ok tt (set_reply (Body body) w).
Proof. unfold res_send. now intros ->. Qed.

Lemma res_redirect_ok status url w :
  headersSent w = false ->
  res_redirect status url w =
    Ok tt (set_reply (Redirect url) (set_statusCode status w)).
Proof. unfold res_redirect. now intros ->. Qed.

Lemma res_set_ok k v w :
  headersSent w = false -> res_set k v w = Ok tt (set_resHeader k v w).
Proof. unfold res_set. now intros ->. Qed.

Lemma forbidden_ok w :
  headersSent w = false ->
  (res_status 403 ;; res_send "Forbidden: Access is denied.") w =
    Ok tt (set_reply (Body "Forbidden: Access is denied.") (set_statusCode 403 w)).
Proof. intros H. unfold bind, res_status. now rewrite res_send_ok. Qed.

(** The [switch] of [forceDomainSSL], one lemma for each group of labels. *)
Lemma forceDomainSSL_local env req :
  NODE_ENV env = Some "local" -> forceDomainSSL env req = next.
Proof. unfold forceDomainSSL. now intros ->. Qed.

Lemma forceDomainSSL_review_staging env req :
  NODE_ENV env = Some "review" \/ NODE_ENV env = Some "staging" ->
  forceDomainSSL env req =
    if JS.strict_ne (req_header req "x-forwarded-proto") (Some "https") then
      res_redirect 302
        ("https://" ++ JS.template (headers req !! "host") ++ originalUrl req)
    else next.
Proof. unfold forceDomainSSL. now intros [-> | ->]. Qed.

Lemma forceDomainSSL_production env req :
  NODE_ENV env = Some "production" ->
  forceDomainSSL env req =
    if isAppDomainOnProduction env req then
      res_redirect 302
        ("https://" ++ JS.template (PUBLIC_DOMAIN env) ++ originalUrl req)
    else if isNonSecurePublicDomainOnProduction env req then
      logger_info ("Insecure request to " ++ JS.template (PUBLIC_DOMAIN env)) ;;
      res_redirect 302
        ("https://" ++ JS.template (headers req !! "host") ++ originalUrl req)
    else next.
Proof. unfold forceDomainSSL. now intros ->. Qed.

Lemma forceDomainSSL_default env req :
  NODE_ENV env <> Some "review" ->
  NODE_ENV env <> Some "staging" ->
  NODE_ENV env <> Some "production" ->
  forceDomainSSL env req = next.
Proof.
  intros Hr Hs Hp. unfold forceDomainSSL.
  apply JSFacts.strict_eq_false in Hr as ->.
  apply JSFacts.strict_eq_false in Hs as ->.
  apply JSFacts.strict_eq_false in Hp as ->.
  now destruct (JS.strict_eq (NODE_ENV env) (Some "local")).
Qed.

(** With an empty public domain neither production test holds. *)
Lemma production_tests_empty_public_domain env req :
  PUBLIC_DOMAIN env = Some "" ->
  isAppDomainOnProduction env req = false /\
  isNonSecurePublicDomainOnProduction env req = false.
Proof.
  intros H. unfold isAppDomainOnProduction, isNonSecurePublicDomainOnProduction.
  rewrite H. split; [apply andb_false_intro1, andb_false_intro2 |]; reflexivity.
Qed.

Lemma isAppDomainOnProduction_true env req app pub :
  APP_DOMAIN env = Some app -> app <> "" ->
  PUBLIC_DOMAIN env = Some pub -> pub <> "" ->
  headers req !! "host" = Some app ->
  isAppDomainOnProduction env req = true.
Proof.
  intros Ha Hane Hp Hpne Hhost. unfold isAppDomainOnProduction.
  rewrite Ha, Hp, Hhost, JSFacts.strict_eq_refl.
  rewrite !andb_true_iff, !JSFacts.strict_ne_true.
  repeat split; congruence.
Qed.

(** Every branch of [forceDomainSSL] returns normally. *)
Lemma forceDomainSSL_ok env req w :
  headersSent w = false -> exists w', forceDomainSSL env req w = Ok tt w'.
Proof.
  intros Hw. unfold forceDomainSSL.
  repeat match goal with
         | |- context [if ?b then _ else _] => destruct b
         end;
    try (now eexists);
    try (rewrite res_redirect_ok by assumption; now eexists).
  unfold bind, logger_info. rewrite res_redirect_ok by assumption. now eexists.
Qed.

Lemma whitelistIp_ok env req w :
  headersSent w = false -> exists w', whitelistIp env req w = Ok tt w'.
Proof.
  intros Hw. unfold whitelistIp.
  destruct (String.eqb (WHITELIST_IP env) ""); [now eexists |].
  destruct (JSString.includes _ _); [now eexists |].
  rewrite forbidden_ok by assumption. now eexists.
Qed.

Lemma skipMap_ok req w :
  headersSent w = false -> exists w', skipMap req w = Ok tt w'.
Proof.
  intros Hw. unfold skipMap.
  destruct (JSString.match_dot_map (path req)); [| now eexists].
  rewrite res_send_ok by assumption. now eexists.
Qed.

Lemma middlewareSecurity_ok req w :
  headersSent w = false -> exists w', middlewareSecurity req w = Ok tt w'.
Proof.
  intros Hw. unfold middlewareSecurity, bind.
  rewrite res_set_ok by assumption. now eexists.
Qed.

Lemma unless_ok middleware paths req w :
  (exists w', middleware req w = Ok tt w') ->
  exists w', unless middleware paths req w = Ok tt w'.
Proof.
  intros H. unfold unless.
  destruct (existsb _ paths); [now eexists | exact H].
Qed.

(** C5: in production mode, with app domain and public domain configured and
    not empty, a request whose host header is the app domain is answered by a
    302 redirect to https://{public domain}{original url}, and the chain is
    not continued. *)
Theorem app_domain_redirects_to_public_domain env req w app pub :
  NODE_ENV env = Some "production" ->
  APP_DOMAIN env = Some app -> app <> "" ->
  PUBLIC_DOMAIN env = Some pub -> pub <> "" ->
  headers req !! "host" = Some app ->
  headersSent w = false ->
  exists w',
    forceDomainSSL env req w = Ok tt w' /\
    statusCode w' = 302%Z /\
    reply w' = Some (Redirect ("https://" ++ pub ++ originalUrl req)) /\
    nextCalls w' = nextCalls w.
Proof.
  intros Henv Ha Hane Hp Hpne Hhost Hw.
  rewrite (forceDomainSSL_production _ _ Henv).
  rewrite (isAppDomainOnProduction_true _ _ _ _ Ha Hane Hp Hpne Hhost).
  rewrite res_redirect_ok by assumption. rewrite Hp.
  eexists. repeat split.
Qed.

Lemma app_domain_redirects_to_public_domain_witness :
  exists w',
    forceDomainSSL production_env
      (get (Some "api.herokuapp.com") "/v1/keys" "?page=2" None) fresh = Ok tt w' /\
    statusCode w' = 302%Z /\
    reply w' = Some (Redirect "https://api.example.com/v1/keys?page=2") /\
    nextCalls w' = 0.
Proof.
  apply (app_domain_redirects_to_public_domain production_env
           (get (Some "api.herokuapp.com") "/v1/keys" "?page=2" None) fresh
           "api.herokuapp.com" "api.example.com");
    (reflexivity || discriminate).
Defined.

(** C6, as stated, fails: in staging mode the domain values play no part, and
    with both of them empty a request that is not HTTPS is still redirected
    instead of being passed to the next handler. *)
Lemma staging_redirects_with_empty_domains :
  let env : gmap string string :=
    {[ "NODE_ENV" := "staging"; "APP_DOMAIN" := ""; "PUBLIC_DOMAIN" := "" ]} in
  let req := get (Some "api.example.com") "/v1/keys" "" None in
  APP_DOMAIN env = Some "" /\
  PUBLIC_DOMAIN env = Some "" /\
  forceDomainSSL env req fresh =
    Ok tt (set_reply (Redirect "https://api.example.com/v1/keys")
             (set_statusCode 302 fresh)) /\
  forceDomainSSL env req fresh <> next fresh.
Proof. repeat split. discriminate. Qed.

(** In production mode an empty app domain alone does not switch the
    middleware off: plain HTTP on the public domain is still redirected. *)
Lemma production_redirects_with_empty_app_domain :
  let env : gmap string string :=
    {[ "NODE_ENV" := "production"; "APP_DOMAIN" := "";
       "PUBLIC_DOMAIN" := "api.example.com" ]} in
  let req := get (Some "api.example.com") "/v1/keys" "" None in
  forceDomainSSL env req fresh =
    Ok tt (add_log "Insecure request to api.example.com"
             (set_reply (Redirect "https://api.example.com/v1/keys")
                (set_statusCode 302 fresh))) /\
  forceDomainSSL env req fresh <> next fresh.
Proof. repeat split. discriminate. Qed.

(** Domain values that are missing are [undefined], which the tests against
    the empty string let through: in production mode, with the app domain set
    and the public domain missing, a request for the app domain is redirected
    to the host "undefined". *)
Lemma production_missing_public_domain_redirects_to_undefined :
  let env : gmap string string :=
    {[ "NODE_ENV" := "production"; "APP_DOMAIN" := "api.herokuapp.com" ]} in
  let req := get (Some "api.herokuapp.com") "/v1/keys" "" None in
  PUBLIC_DOMAIN env = None /\
  forceDomainSSL env req fresh =
    Ok tt (set_reply (Redirect "https://undefined/v1/keys")
             (set_statusCode 302 fresh)).
Proof. repeat split. Qed.

(** The same with both domain values missing, for a request that carries no
    host header. *)
Lemma production_missing_domains_without_host_redirects_to_undefined :
  let env : gmap string string := {[ "NODE_ENV" := "production" ]} in
  let req := get None "/v1/keys" "" None in
  APP_DOMAIN env = None /\
  PUBLIC_DOMAIN env = None /\
  forceDomainSSL env req fresh =
    Ok tt (set_reply (Redirect "https://undefined/v1/keys")
             (set_statusCode 302 fresh)).
Proof. repeat split. Qed.

(** C6 (amended): on a response not yet sent, no middleware function throws,
    for every request and every environment ([unless] as long as the
    middleware it wraps does not).  When the public domain is the empty
    string, whatever the app domain, [forceDomainSSL] in production mode
    passes every request to the next handler; so it does in local and
    unrecognised modes, whatever the domain values.  In review and staging
    modes the domain values play no part: a request that is not HTTPS is
    redirected to the HTTPS address of its own host. *)
Theorem middleware_total_and_empty_public_domain_passes env req w :
  headersSent w = false ->
  (exists w', forceDomainSSL env req w = Ok tt w') /\
  (exists w', middlewareSecurity req w = Ok tt w') /\
  (exists w', skipMap req w = Ok tt w') /\
  (exists w', whitelistIp env req w = Ok tt w') /\
  (forall middleware paths,
     (exists w', middleware req w = Ok tt w') ->
     exists w', unless middleware paths req w = Ok tt w') /\
  (NODE_ENV env = Some "production" -> PUBLIC_DOMAIN env = Some "" ->
   forceDomainSSL env req w = next w) /\
  (NODE_ENV env <> Some "review" -> NODE_ENV env <> Some "staging" ->
   NODE_ENV env <> Some "production" ->
   forceDomainSSL env req w = next w) /\
  (NODE_ENV env = Some "review" \/ NODE_ENV env = Some "staging" ->
   req_header req "x-forwarded-proto" <> Some "https" ->
   forceDomainSSL env req w =
     Ok tt (set_reply
              (Redirect ("https://" ++ JS.template (headers req !! "host")
                           ++ originalUrl req))
              (set_statusCode 302 w))).
Proof.
  intros Hw. repeat apply conj.
  - now apply forceDomainSSL_ok.
  - now apply middlewareSecurity_ok.
  - now apply skipMap_ok.
  - now apply whitelistIp_ok.
  - intros middleware paths. apply unless_ok.
  - intros Henv Hp. rewrite (forceDomainSSL_production _ _ Henv).
    destruct (production_tests_empty_public_domain env req Hp) as [-> ->].
    reflexivity.
  - intros Hr Hs Hp. now rewrite forceDomainSSL_default.
  - intros Henv Hproto. rewrite (forceDomainSSL_review_staging _ _ Henv).
    apply JSFacts.strict_ne_true in Hproto as ->.
    now apply res_redirect_ok.
Qed.

Lemma middleware_total_and_empty_public_domain_passes_witness :
  let env : gmap string string :=
    {[ "NODE_ENV" := "production"; "APP_DOMAIN" := ""; "PUBLIC_DOMAIN" := "" ]} in
  let req := get (Some "api.example.com") "/v1/keys" "" None in
  headersSent fresh = false /\
  forceDomainSSL env req fresh = next fresh.
Proof.
  intros env req. split; [reflexivity |].
  destruct (middleware_total_and_empty_public_domain_passes env req fresh eq_refl)
    as (_ & _ & _ & _ & _ & Hpass & _).
  apply Hpass; reflexivity.
Defined.



(** C8, as stated, fails: [skipMap] sets no status.  On a response whose
    status an earlier handler has set to 404, the empty body for "/app.js.map"
    goes out under 404, not 200. *)
Lemma skipMap_keeps_an_earlier_status :
  let req := get None "/app.js.map" "" None in
  let w := set_statusCode 404 fresh in
  JSString.ends_in_dot_map (path req) /\
  headersSent w = false /\
  exists w',
    skipMap req w = Ok tt w' /\
    reply w' = Some (Body "") /\
    statusCode w' = 404%Z /\
    statusCode w' <> 200%Z.
Proof.
  intros req w. split; [now exists "/app.js", ".map" |].
  split; [reflexivity |].
  eexists. split; [reflexivity |]. repeat split. discriminate.
Qed.

(** C8 (amended): for a path that ends in ".map", in any case of the letters,
    the middleware is the single call [res.send('')]: it sends an empty body
    and does not continue the chain, whatever the environment and the rest of
    the request; it sets no status itself, so the answer has status 200 only
    when the response still has its default status and Express does not turn
    the answer to a conditional request into 304.  For every other path it
    calls the next handler. *)
Theorem skipMap_sends_an_empty_body_for_map_paths req w :
  (JSString.ends_in_dot_map (path req) ->
   skipMap req w = res_send "" w /\
   (headersSent w = false ->
    exists w',
      skipMap req w = Ok tt w' /\
      reply w' = Some (Body "") /\
      nextCalls w' = nextCalls w)) /\
  (~ JSString.ends_in_dot_map (path req) -> skipMap req w = next w).
Proof.
  unfold skipMap. split.
  - intros Hmap. apply JSStringFacts.match_dot_map_true in Hmap as ->.
    split; [reflexivity |]. intros Hw.
    rewrite res_send_ok by assumption. eexists. repeat split.
  - intros Hmap. now apply JSStringFacts.match_dot_map_false in Hmap as ->.
Qed.

Lemma skipMap_sends_an_empty_body_for_map_paths_witness :
  (JSString.ends_in_dot_map "/app.js.map" /\
   skipMap (get None "/app.js.map" "" None) fresh = res_send "" fresh /\
   exists w',
     skipMap (get None "/app.js.map" "" None) fresh = Ok tt w' /\
     reply w' = Some (Body "") /\
     nextCalls w' = 0) /\
  (~ JSString.ends_in_dot_map "/app.js" /\
   skipMap (get None "/app.js" "" None) fresh = next fresh).
Proof.
  assert (H1 : JSString.ends_in_dot_map (path (get None "/app.js.map" "" None)))
    by (now exists "/app.js", ".map").
  assert (H2 : ~ JSString.ends_in_dot_map (path (get None "/app.js" "" None)))
    by (now apply JSStringFacts.match_dot_map_false).
  split; (split; [assumption |]).
  - destruct (proj1 (skipMap_sends_an_empty_body_for_map_paths
                       (get None "/app.js.map" "" None) fresh) H1)
      as [Hsend Hreply].
    split; [exact Hsend | exact (Hreply eq_refl)].
  - exact (proj2 (skipMap_sends_an_empty_body_for_map_paths
                    (get None "/app.js" "" None) fresh) H2).
Defined.

(** The IP compared is the forwarded header when it is a string that is not
    empty, and the connection IP otherwise. *)
Lemma request_ip_cases req :
  request_ip req =
    match req_get req FORWARDED_IP_HEADER with
    | Some v => if String.eqb v "" then ip req else Some v
    | None => ip req
    end.
Proof.
  unfold request_ip, JS.or, JS.truthy.
  destruct (req_get req FORWARDED_IP_HEADER) as [v|]; [| reflexivity].
  now destruct (String.eqb v "").
Qed.

(** C10, as stated, fails: a forwarded header that is present and empty is
    not the value compared.  The entry list does not hold the empty string,
    and still the request passes, on the connection IP. *)
Lemma empty_forwarded_header_is_not_compared :
  let env : gmap string string := {[ "WHITELIST_IP" := "1.2.3.4" ]} in
  let req := forwarded "" (Some "1.2.3.4") in
  WHITELIST_IP env <> "" /\
  req_get req FORWARDED_IP_HEADER = Some "" /\
  ~ In "" (JSString.split "," (WHITELIST_IP env)) /\
  request_ip req = Some "1.2.3.4" /\
  whitelistIp env req fresh = next fresh.
Proof.
  repeat split; try discriminate.
  intros [H | []]. discriminate H.
Qed.

(** C10 (amended): with a whitelist that is not empty, the entries are the
    pieces of the whitelist string between its commas, nothing trimmed (joined
    by commas they give the string again, and no entry holds a comma); the
    request passes exactly when the compared IP is a string equal, character
    for character, to one of the entries, and is answered 403 otherwise (so
    the list "1.2.3.4, 5.6.7.8" rejects the IP "5.6.7.8"); the IP compared is
    the x-forwarded-for header value when present and not empty, otherwise
    the connection IP. *)
Theorem whitelist_exact_membership env req w :
  WHITELIST_IP env <> "" ->
  headersSent w = false ->
  request_ip req =
    match req_get req "x-forwarded-for" with
    | Some v => if String.eqb v "" then ip req else Some v
    | None => ip req
    end /\
  JSString.join "," (JSString.split "," (WHITELIST_IP env)) = WHITELIST_IP env /\
  Forall (fun entry => JSString.contains "," entry = false)
         (JSString.split "," (WHITELIST_IP env)) /\
  ((exists s, request_ip req = Some s /\
              In s (JSString.split "," (WHITELIST_IP env))) ->
   whitelistIp env req w = next w) /\
  (~ (exists s, request_ip req = Some s /\
                In s (JSString.split "," (WHITELIST_IP env))) ->
   whitelistIp env req w =
     Ok tt (set_reply (Body "Forbidden: Access is denied.")
              (set_statusCode 403 w))) /\
  (WHITELIST_IP env = "1.2.3.4, 5.6.7.8" ->
   request_ip req = Some "5.6.7.8" ->
   whitelistIp env req w =
     Ok tt (set_reply (Body "Forbidden: Access is denied.")
              (set_statusCode 403 w))).
Proof.
  intros Hne Hw.
  assert (Hreject :
    ~ (exists s, request_ip req = Some s /\
                 In s (JSString.split "," (WHITELIST_IP env))) ->
    whitelistIp env req w =
      Ok tt (set_reply (Body "Forbidden: Access is denied.")
               (set_statusCode 403 w))).
  { intros Hout. unfold whitelistIp.
    apply String.eqb_neq in Hne as ->.
    destruct (JSString.includes _ _) eqn:Hin.
    - now apply JSStringFacts.includes_true in Hin.
    - now apply forbidden_ok. }
  repeat apply conj.
  - apply request_ip_cases.
  - apply JSStringFacts.join_split.
  - apply JSStringFacts.split_pieces_free.
  - intros Hin. apply JSStringFacts.includes_true in Hin.
    unfold whitelistIp. apply String.eqb_neq in Hne as ->. now rewrite Hin.
  - exact Hreject.
  - intros Hwl Hip. apply Hreject. rewrite Hwl, Hip.
    intros (s & [= <-] & [H | [H | []]]); discriminate H.
Qed.

Lemma whitelist_exact_membership_witness :
  let env : gmap string string := {[ "WHITELIST_IP" := "1.2.3.4, 5.6.7.8" ]} in
  WHITELIST_IP env <> "" /\
  JSString.split "," (WHITELIST_IP env) = ["1.2.3.4"; " 5.6.7.8"] /\
  whitelistIp env (forwarded "5.6.7.8" (Some "10.0.0.1")) fresh =
    Ok tt (set_reply (Body "Forbidden: Access is denied.")
             (set_statusCode 403 fresh)) /\
  whitelistIp env (forwarded " 5.6.7.8" (Some "10.0.0.1")) fresh = next fresh.
Proof.
  intros env.
  assert (Hne : WHITELIST_IP env <> "") by discriminate.
  split; [exact Hne |]. split; [reflexivity |]. split.
  - destruct (whitelist_exact_membership env
                (forwarded "5.6.7.8" (Some "10.0.0.1")) fresh Hne eq_refl)
      as (_ & _ & _ & _ & _ & Hexample).
    apply Hexample; reflexivity.
  - destruct (whitelist_exact_membership env
                (forwarded " 5.6.7.8" (Some "10.0.0.1")) fresh Hne eq_refl)
      as (_ & _ & _ & Hpass & _).
    apply Hpass. exists " 5.6.7.8". split; [reflexivity |].
    right. left. reflexivity.
Defined.

End MiddlewareFacts.

(** ** More on the reconnect policy and the options builder *)

Module RedisClientMore.

Import RedisClient Samples.

Open Scope Z_scope.

(** Whether the first test of the policy fires is decided by [refused]. *)
Lemma refused_dec options : refused options \/ ~ refused options.
Proof.
  pose proof (RedisClientFacts.refused_test options) as H.
  destruct (match error options with
            | Some e => JS.strict_eq (code e) (Some "ECONNREFUSED")
            | None => false
            end).
  - left. now apply H.
  - right. intros Hr. apply H in Hr. discriminate Hr.
Qed.

(** X1: a delay the policy returns is the attempt count times 100 and at
    most 1000 ms: attempts above 10 never get a delay, so the cap of 3000 ms
    is never what is returned. *)
Theorem delay_is_linear_below_the_cap options d :
  retry_strategy options = RetNumber d ->
  d = attempt options * 100 /\ d <= 1000 /\
  attempt options <= 10 /\ ~ refused options /\
  total_retry_time options <= 3600000.
Proof.
  intros H. destruct (refused_dec options) as [Hr | Hr].
  { rewrite (RedisClientFacts.retry_strategy_refused _ Hr) in H. discriminate H. }
  destruct (Z.lt_ge_cases 3600000 (total_retry_time options)) as [Ht | Ht].
  { rewrite (RedisClientFacts.retry_strategy_exhausted _ Hr Ht) in H.
    discriminate H. }
  destruct (Z.lt_ge_cases 10 (attempt options)) as [Ha | Ha].
  { rewrite (RedisClientFacts.retry_strategy_stop _ Hr Ht Ha) in H.
    discriminate H. }
  rewrite (RedisClientFacts.retry_strategy_delay _ Hr Ht Ha) in H.
  injection H as <-. repeat split; try assumption; lia.
Qed.

Lemma delay_is_linear_below_the_cap_witness :
  retry_strategy (retry_input 10 1000 (Some etimedout)) = RetNumber 1000 /\
  1000 = attempt (retry_input 10 1000 (Some etimedout)) * 100.
Proof.
  split; [reflexivity |].
  apply (delay_is_linear_below_the_cap
           (retry_input 10 1000 (Some etimedout)) 1000).
  reflexivity.
Defined.

(** X2: the policy gives up silently exactly when the error is not a refused
    connection, the cumulative retry time is at most one hour and the attempt
    count is above 10. *)
Theorem silent_stop_iff options :
  retry_strategy options = RetUndefined <->
  ~ refused options /\ total_retry_time options <= 3600000 /\
  10 < attempt options.
Proof.
  split.
  - intros H. destruct (refused_dec options) as [Hr | Hr].
    { rewrite (RedisClientFacts.retry_strategy_refused _ Hr) in H.
      discriminate H. }
    destruct (Z.lt_ge_cases 3600000 (total_retry_time options)) as [Ht | Ht].
    { rewrite (RedisClientFacts.retry_strategy_exhausted _ Hr Ht) in H.
      discriminate H. }
    destruct (Z.lt_ge_cases 10 (attempt options)) as [Ha | Ha].
    + now repeat split.
    + rewrite (RedisClientFacts.retry_strategy_delay _ Hr Ht Ha) in H.
      discriminate H.
  - intros (Hr & Ht & Ha). now apply RedisClientFacts.retry_strategy_stop.
Qed.

(** X3: the policy returns an error exactly in two cases, each with its own
    message: a refused connection, or more than one hour of cumulative retry
    time without a refused connection. *)
Theorem fatal_error_iff options msg :
  retry_strategy options = RetError msg <->
  (refused options /\ msg = "The server refused the connection"%string) \/
  (~ refused options /\ 3600000 < total_retry_time options /\
   msg = "Retry time exhausted"%string).
Proof.
  split.
  - intros H. destruct (refused_dec options) as [Hr | Hr].
    { rewrite (RedisClientFacts.retry_strategy_refused _ Hr) in H.
      injection H as <-. now left. }
    destruct (Z.lt_ge_cases 3600000 (total_retry_time options)) as [Ht | Ht].
    { rewrite (RedisClientFacts.retry_strategy_exhausted _ Hr Ht) in H.
      injection H as <-. right. now repeat split. }
    destruct (Z.lt_ge_cases 10 (attempt options)) as [Ha | Ha].
    + rewrite (RedisClientFacts.retry_strategy_stop _ Hr Ht Ha) in H.
      discriminate H.
    + rewrite (RedisClientFacts.retry_strategy_delay _ Hr Ht Ha) in H.
      discriminate H.
  - intros [(Hr & ->) | (Hr & Ht & ->)].
    + now apply RedisClientFacts.retry_strategy_refused.
    + now apply RedisClientFacts.retry_strategy_exhausted.
Qed.

Close Scope Z_scope.

(** The options before the optional properties are assigned. *)
Lemma fixed_options_lookup (k : string) :
  ({[ "no_ready_check" := OBool true;
      "enable_offline_queue" := OBool true;
      "retry_strategy" := ORetry retry_strategy ]}
     : gmap string option_value) !! k =
    if String.eqb k "no_ready_check" then Some (OBool true)
    else if String.eqb k "enable_offline_queue" then Some (OBool true)
    else if String.eqb k "retry_strategy" then Some (ORetry retry_strategy)
    else None.
Proof.
  destruct (String.eqb_spec k "no_ready_check") as [-> | H1]; [reflexivity |].
  destruct (String.eqb_spec k "enable_offline_queue") as [-> | H2];
    [reflexivity |].
  destruct (String.eqb_spec k "retry_strategy") as [-> | H3]; [reflexivity |].
  rewrite !lookup_insert_ne by congruence.
  apply lookup_singleton_ne. congruence.
Qed.

(** [redisOptions], property by property. *)
Lemma redisOptions_lookup env (k : string) :
  redisOptions env !! k =
    if String.eqb k "tls" then
      if String.eqb (REDIS_CA env) "" then None
      else Some (OTls {| cert := REDIS_CA env; ca := [REDIS_CA env] |})
    else if String.eqb k "password" then
      if String.eqb (REDIS_PASSWORD env) "" then None
      else Some (OStr (REDIS_PASSWORD env))
    else if String.eqb k "no_ready_check" then Some (OBool true)
    else if String.eqb k "enable_offline_queue" then Some (OBool true)
    else if String.eqb k "retry_strategy" then Some (ORetry retry_strategy)
    else None.
Proof.
  unfold redisOptions, assign_tls.
  destruct (String.eqb_spec k "tls") as [-> | Htls].
  - destruct (String.eqb (REDIS_CA env) ""); simpl.
    + destruct (String.eqb (REDIS_PASSWORD env) ""); simpl.
      * apply fixed_options_lookup.
      * rewrite lookup_insert_ne by discriminate. apply fixed_options_lookup.
    + apply lookup_insert_eq.
  - assert (Hpw :
      (if negb (String.eqb (REDIS_PASSWORD env) "")
       then <["password" := OStr (REDIS_PASSWORD env)]>
              ({[ "no_ready_check" := OBool true;
                  "enable_offline_queue" := OBool true;
                  "retry_strategy" := ORetry retry_strategy ]}
                 : gmap string option_value)
       else {[ "no_ready_check" := OBool true;
               "enable_offline_queue" := OBool true;
               "retry_strategy" := ORetry retry_strategy ]}) !! k =
      if String.eqb k "password" then
        if String.eqb (REDIS_PASSWORD env) "" then None
        else Some (OStr (REDIS_PASSWORD env))
      else if String.eqb k "no_ready_check" then Some (OBool true)
      else if String.eqb k "enable_offline_queue" then Some (OBool true)
      else if String.eqb k "retry_strategy" then Some (ORetry retry_strategy)
      else None).
    { destruct (String.eqb_spec k "password") as [-> | Hk].
      - destruct (String.eqb (REDIS_PASSWORD env) ""); simpl.
        + apply fixed_options_lookup.
        + apply lookup_insert_eq.
      - destruct (String.eqb (REDIS_PASSWORD env) ""); simpl.
        + apply fixed_options_lookup.
        + rewrite lookup_insert_ne by congruence. apply fixed_options_lookup. }
    destruct (negb (String.eqb (REDIS_CA env) "")).
    + rewrite !lookup_insert_ne by congruence. exact Hpw.
    + exact Hpw.
Qed.

(** X4: the options carry a password exactly when REDIS_PASSWORD is set and
    not empty, and a TLS block (the certificate, and the certificate as the
    only authority) exactly when REDIS_CA is set and not empty; a variable
    that is missing counts as empty. *)
Theorem optional_properties_follow_the_environment env :
  redisOptions env !! "password" =
    match env !! "REDIS_PASSWORD" with
    | Some pw => if String.eqb pw "" then None else Some (OStr pw)
    | None => None
    end /\
  redisOptions env !! "tls" =
    match env !! "REDIS_CA" with
    | Some c => if String.eqb c "" then None
                else Some (OTls {| cert := c; ca := [c] |})
    | None => None
    end.
Proof.
  rewrite !redisOptions_lookup. simpl.
  unfold REDIS_PASSWORD, REDIS_CA, JS.destructure. split.
  - now destruct (env !! "REDIS_PASSWORD").
  - now destruct (env !! "REDIS_CA").
Qed.

(** X5: whatever the environment, the options keep no_ready_check and
    enable_offline_queue true and the reconnect policy in place, and hold no
    property besides these three, password and tls. *)
Theorem fixed_properties_are_kept env :
  redisOptions env !! "no_ready_check" = Some (OBool true) /\
  redisOptions env !! "enable_offline_queue" = Some (OBool true) /\
  redisOptions env !! "retry_strategy" = Some (ORetry retry_strategy) /\
  forall k : string,
    is_Some (redisOptions env !! k) ->
    In k ["no_ready_check"; "enable_offline_queue"; "retry_strategy";
          "password"; "tls"].
Proof.
  repeat split; try (rewrite redisOptions_lookup; reflexivity).
  intros k. rewrite redisOptions_lookup.
  destruct (String.eqb_spec k "tls") as [-> | _]; [simpl; tauto |].
  destruct (String.eqb_spec k "password") as [-> | _]; [simpl; tauto |].
  destruct (String.eqb_spec k "no_ready_check") as [-> | _]; [simpl; tauto |].
  destruct (String.eqb_spec k "enable_offline_queue") as [-> | _];
    [simpl; tauto |].
  destruct (String.eqb_spec k "retry_strategy") as [-> | _]; [simpl; tauto |].
  intros [v Hv]. discriminate Hv.
Qed.

End RedisClientMore.

(** ** More on the middleware set *)

Module MiddlewareMore.

Import Express Middleware Handling Samples MoreSamples.

(** Calling the next handler and answering leave different worlds. *)
Lemma next_is_not_an_answer w p w0 :
  headersSent w = false -> next w <> Ok tt (set_reply p w0).
Proof.
  unfold headersSent, next. intros Hw H.
  apply (f_equal (fun o : outcome unit =>
                    match o with
                    | Ok _ w' => reply w'
                    | Throw _ w' => reply w'
                    end)) in H.
  simpl in H. rewrite H in Hw. discriminate Hw.
Qed.

Lemma handled_next w : headersSent w = false -> handled next w.
Proof.
  unfold headersSent. intros Hw. exists (count_next w). split; [reflexivity |].
  left. split; [| reflexivity]. simpl. now destruct (reply w).
Qed.

Lemma handled_redirect status url w :
  headersSent w = false -> handled (res_redirect status url) w.
Proof.
  intros Hw. eexists. split; [now apply MiddlewareFacts.res_redirect_ok |].
  right. now split.
Qed.

Lemma handled_send body w :
  headersSent w = false -> handled (res_send body) w.
Proof.
  intros Hw. eexists. split; [now apply MiddlewareFacts.res_send_ok |].
  right. now split.
Qed.

(** [whitelistIp] once the whitelist is configured. *)
Lemma whitelistIp_configured env req w :
  WHITELIST_IP env <> "" ->
  headersSent w = false ->
  whitelistIp env req w =
    if JSString.includes (JSString.split "," (WHITELIST_IP env)) (request_ip req)
    then next w else Ok tt (forbidden w).
Proof.
  intros Hne Hw. unfold whitelistIp.
  apply String.eqb_neq in Hne as ->.
  destruct (JSString.includes _ _); [reflexivity |].
  now apply MiddlewareFacts.forbidden_ok.
Qed.

(** A string without the separator is its own single piece. *)
Lemma split_without_separator sep s :
  JSString.contains sep s = false -> JSString.split sep s = [s].
Proof.
  intros H.
  apply (JSStringFacts.split_join sep [s]); [discriminate |].
  now repeat constructor.
Qed.

(** X6: without a whitelist (WHITELIST_IP missing, or empty) every request is
    passed to the next handler, whatever its headers and IP. *)
Theorem no_whitelist_passes_everything (env : gmap string string) req w :
  env !! "WHITELIST_IP" = None \/ env !! "WHITELIST_IP" = Some "" ->
  whitelistIp env req w = next w.
Proof.
  intros H. unfold whitelistIp, WHITELIST_IP, JS.destructure.
  now destruct H as [-> | ->].
Qed.

Lemma no_whitelist_passes_everything_witness :
  whitelistIp ∅ (from (Some "9.9.9.9") None) fresh
    = next fresh.
Proof.
  apply (no_whitelist_passes_everything ∅ (from (Some "9.9.9.9") None) fresh).
  left. reflexivity.
Defined.

(** X7: under a configured whitelist a request with no usable IP (forwarded
    header missing or empty, and no connection IP) is answered 403, whatever
    the entries are. *)
Theorem request_without_ip_is_forbidden env req w :
  WHITELIST_IP env <> "" ->
  req_get req "x-forwarded-for" = None \/
  req_get req "x-forwarded-for" = Some "" ->
  ip req = None ->
  headersSent w = false ->
  whitelistIp env req w = Ok tt (forbidden w).
Proof.
  intros Hne Hxff Hip Hw. rewrite whitelistIp_configured by assumption.
  rewrite MiddlewareFacts.request_ip_cases. unfold FORWARDED_IP_HEADER.
  destruct Hxff as [-> | ->]; simpl; now rewrite Hip.
Qed.

Lemma request_without_ip_is_forbidden_witness :
  let env : gmap string string := {[ "WHITELIST_IP" := "1.2.3.4," ]} in
  JSString.split "," (WHITELIST_IP env) = ["1.2.3.4"; ""] /\
  whitelistIp env (from (Some "") None) fresh = Ok tt (forbidden fresh).
Proof.
  intros env. split; [reflexivity |].
  apply (request_without_ip_is_forbidden env (from (Some "") None) fresh);
    [discriminate | right; reflexivity | reflexivity | reflexivity].
Defined.

(** X8: a forwarded header that is not empty decides alone: the request
    passes when the header value is an entry and is answered 403 when it is
    not, whatever the connection IP. *)
Theorem forwarded_header_overrides_connection_ip env req w v :
  WHITELIST_IP env <> "" ->
  req_get req "x-forwarded-for" = Some v ->
  v <> "" ->
  headersSent w = false ->
  (In v (JSString.split "," (WHITELIST_IP env)) ->
   whitelistIp env req w = next w) /\
  (~ In v (JSString.split "," (WHITELIST_IP env)) ->
   whitelistIp env req w = Ok tt (forbidden w)).
Proof.
  intros Hne Hxff Hv Hw. rewrite whitelistIp_configured by assumption.
  assert (Hip : request_ip req = Some v).
  { rewrite MiddlewareFacts.request_ip_cases. unfold FORWARDED_IP_HEADER.
    rewrite Hxff. now apply String.eqb_neq in Hv as ->. }
  rewrite Hip. split; intros Hin.
  - now apply JSStringFacts.includes_Some in Hin as ->.
  - destruct (JSString.includes _ _) eqn:Hinc; [| reflexivity].
    now apply JSStringFacts.includes_Some in Hinc.
Qed.

Lemma forwarded_header_overrides_connection_ip_witness :
  let env : gmap string string := {[ "WHITELIST_IP" := "1.2.3.4,5.6.7.8" ]} in
  whitelistIp env (from (Some "5.6.7.8") (Some "9.9.9.9")) fresh = next fresh /\
  whitelistIp env (from (Some "9.9.9.9") (Some "5.6.7.8")) fresh
    = Ok tt (forbidden fresh).
Proof.
  intros env. split.
  - apply (forwarded_header_overrides_connection_ip env
             (from (Some "5.6.7.8") (Some "9.9.9.9")) fresh "5.6.7.8");
      [discriminate | reflexivity | discriminate | reflexivity |].
    right. left. reflexivity.
  - apply (forwarded_header_overrides_connection_ip env
             (from (Some "9.9.9.9") (Some "5.6.7.8")) fresh "9.9.9.9");
      [discriminate | reflexivity | discriminate | reflexivity |].
    intros [H | [H | []]]; discriminate H.
Defined.

(** X9: a forwarded header that lists several addresses (it holds a comma) is
    compared as a whole and never equals an entry: the request is answered
    403 under every configured whitelist. *)
Theorem forwarded_chain_is_forbidden env req w v :
  WHITELIST_IP env <> "" ->
  req_get req "x-forwarded-for" = Some v ->
  JSString.contains "," v = true ->
  headersSent w = false ->
  whitelistIp env req w = Ok tt (forbidden w).
Proof.
  intros Hne Hxff Hcomma Hw.
  assert (Hv : v <> "") by (intros ->; discriminate Hcomma).
  apply (forwarded_header_overrides_connection_ip env req w v); try assumption.
  intros Hin.
  pose proof (JSStringFacts.split_pieces_free "," (WHITELIST_IP env)) as Hfree.
  rewrite Forall_forall in Hfree. apply list_elem_of_In in Hin.
  apply Hfree in Hin. congruence.
Qed.

Lemma forwarded_chain_is_forbidden_witness :
  let env : gmap string string := {[ "WHITELIST_IP" := "1.2.3.4,10.0.0.1" ]} in
  whitelistIp env (from (Some "1.2.3.4,10.0.0.1") (Some "1.2.3.4")) fresh
    = Ok tt (forbidden fresh).
Proof.
  intros env.
  apply (forwarded_chain_is_forbidden env
           (from (Some "1.2.3.4,10.0.0.1") (Some "1.2.3.4")) fresh
           "1.2.3.4,10.0.0.1");
    [discriminate | reflexivity | reflexivity | reflexivity].
Defined.

(** X10: a whitelist without a comma is a single entry, the whole string: the
    request passes exactly when the compared IP is that string. *)
Theorem single_entry_whitelist env req w :
  WHITELIST_IP env <> "" ->
  JSString.contains "," (WHITELIST_IP env) = false ->
  headersSent w = false ->
  (whitelistIp env req w = next w <->
   request_ip req = Some (WHITELIST_IP env)) /\
  (whitelistIp env req w = Ok tt (forbidden w) <->
   request_ip req <> Some (WHITELIST_IP env)).
Proof.
  intros Hne Hfree Hw. rewrite whitelistIp_configured by assumption.
  rewrite (split_without_separator _ _ Hfree).
  destruct (JSString.includes _ _) eqn:Hinc.
  - apply JSStringFacts.includes_true in Hinc as (s & Hs & [<- | []]).
    split; split; try tauto.
    intros H. now apply next_is_not_an_answer in H.
  - assert (Hno : request_ip req <> Some (WHITELIST_IP env)).
    { intros Heq. rewrite Heq in Hinc. simpl in Hinc.
      now rewrite String.eqb_refl in Hinc. }
    split; split; try tauto.
    intros H. symmetry in H. now apply next_is_not_an_answer in H.
Qed.

Lemma single_entry_whitelist_witness :
  let env : gmap string string := {[ "WHITELIST_IP" := "1.2.3.4" ]} in
  whitelistIp env (from None (Some "1.2.3.4")) fresh = next fresh.
Proof.
  intros env.
  apply (single_entry_whitelist env (from None (Some "1.2.3.4")) fresh);
    reflexivity || discriminate.
Defined.

(** The two production tests, as propositions. *)
Lemma isAppDomainOnProduction_iff env req :
  isAppDomainOnProduction env req = true <->
  APP_DOMAIN env <> Some "" /\ PUBLIC_DOMAIN env <> Some "" /\
  headers req !! "host" = APP_DOMAIN env.
Proof.
  unfold isAppDomainOnProduction.
  rewrite !andb_true_iff, !JSFacts.strict_ne_true, JSFacts.strict_eq_true.
  tauto.
Qed.

Lemma isNonSecurePublicDomainOnProduction_iff env req :
  isNonSecurePublicDomainOnProduction env req = true <->
  PUBLIC_DOMAIN env <> Some "" /\
  headers req !! "host" = PUBLIC_DOMAIN env /\
  req_header req "x-forwarded-proto" <> Some "https".
Proof.
  unfold isNonSecurePublicDomainOnProduction.
  rewrite !andb_true_iff, !JSFacts.strict_ne_true, JSFacts.strict_eq_true.
  tauto.
Qed.

(** X11: whatever the mode and the domains, [forceDomainSSL] either passes
    the request on or answers with a 302 redirect to an https:// address that
    ends in the original URL, on the request's own host or on the public
    domain; when it redirects it does not call the next handler. *)
Theorem forceDomainSSL_passes_or_redirects_to_https env req w :
  headersSent w = false ->
  forceDomainSSL env req w = next w \/
  exists host w',
    (host = JS.template (headers req !! "host") \/
     host = JS.template (PUBLIC_DOMAIN env)) /\
    forceDomainSSL env req w = Ok tt w' /\
    statusCode w' = 302%Z /\
    reply w' = Some (Redirect ("https://" ++ host ++ originalUrl req)) /\
    nextCalls w' = nextCalls w.
Proof.
  intros Hw. unfold forceDomainSSL.
  repeat match goal with
         | |- context [if ?b then _ else _] => destruct b
         end;
    try (left; reflexivity); right.
  - exists (JS.template (headers req !! "host")). eexists.
    split; [now left |].
    rewrite MiddlewareFacts.res_redirect_ok by assumption. now repeat split.
  - exists (JS.template (PUBLIC_DOMAIN env)). eexists.
    split; [now right |].
    rewrite MiddlewareFacts.res_redirect_ok by assumption. now repeat split.
  - exists (JS.template (headers req !! "host")). eexists.
    split; [now left |].
    unfold bind, logger_info.
    rewrite MiddlewareFacts.res_redirect_ok by assumption. now repeat split.
Qed.

Lemma forceDomainSSL_passes_or_redirects_to_https_witness :
  headersSent fresh = false /\
  (forceDomainSSL production_env
     (via_proxy "api.example.com" "http" "/v1/keys") fresh = next fresh \/
   exists host w',
     (host = "api.example.com" \/ host = "api.example.com") /\
     forceDomainSSL production_env
       (via_proxy "api.example.com" "http" "/v1/keys") fresh = Ok tt w' /\
     statusCode w' = 302%Z /\
     reply w' = Some (Redirect ("https://" ++ host ++ "/v1/keys")) /\
     nextCalls w' = 0).
Proof.
  split; [reflexivity |].
  apply (forceDomainSSL_passes_or_redirects_to_https production_env
           (via_proxy "api.example.com" "http" "/v1/keys") fresh).
  reflexivity.
Defined.

(** X12: on a response not yet sent, each middleware function returns
    normally having done exactly one of two things: called the next handler
    once with nothing sent, or sent a response without calling the next
    handler; [unless] keeps this for the middleware it wraps. *)
Theorem middleware_answers_or_continues env req w :
  headersSent w = false ->
  handled (forceDomainSSL env req) w /\
  handled (middlewareSecurity req) w /\
  handled (skipMap req) w /\
  handled (whitelistIp env req) w /\
  forall middleware paths,
    handled (middleware req) w -> handled (unless middleware paths req) w.
Proof.
  intros Hw. repeat apply conj.
  - unfold forceDomainSSL.
    repeat match goal with
           | |- context [if ?b then _ else _] => destruct b
           end;
      try (now apply handled_next); try (now apply handled_redirect).
    eexists. unfold bind, logger_info.
    rewrite MiddlewareFacts.res_redirect_ok by assumption.
    split; [reflexivity |]. right. now split.
  - eexists. unfold middlewareSecurity, bind.
    rewrite MiddlewareFacts.res_set_ok by assumption.
    split; [reflexivity |]. left. unfold headersSent in Hw. split; simpl.
    + now destruct (reply w).
    + reflexivity.
  - unfold skipMap. destruct (JSString.match_dot_map (path req)).
    + now apply handled_send.
    + now apply handled_next.
  - unfold whitelistIp. destruct (String.eqb (WHITELIST_IP env) "");
      [now apply handled_next |].
    destruct (JSString.includes _ _); [now apply handled_next |].
    eexists. rewrite MiddlewareFacts.forbidden_ok by assumption.
    split; [reflexivity |]. right. now split.
  - intros middleware paths H. unfold unless.
    destruct (existsb _ paths); [now apply handled_next | exact H].
Qed.

Lemma middleware_answers_or_continues_witness :
  headersSent fresh = false /\
  handled (skipMap (get None "/app.js.map" "" None)) fresh.
Proof.
  split; [reflexivity |].
  apply (middleware_answers_or_continues ∅ (get None "/app.js.map" "" None) fresh).
  reflexivity.
Defined.

(** X13: in review and staging modes the request is passed on exactly when
    the proxy reports HTTPS (x-forwarded-proto is "https"); a missing header,
    or any other value, is redirected. *)
Theorem staging_passes_https_only env req w :
  NODE_ENV env = Some "review" \/ NODE_ENV env = Some "staging" ->
  headersSent w = false ->
  (forceDomainSSL env req w = next w <->
   req_header req "x-forwarded-proto" = Some "https") /\
  (forceDomainSSL env req w =
     Ok tt (redirected ("https://" ++ JS.template (headers req !! "host")
                          ++ originalUrl req) w) <->
   req_header req "x-forwarded-proto" <> Some "https").
Proof.
  intros Henv Hw.
  rewrite (MiddlewareFacts.forceDomainSSL_review_staging _ _ Henv).
  destruct (JS.strict_ne _ _) eqn:Hproto.
  - apply JSFacts.strict_ne_true in Hproto.
    rewrite MiddlewareFacts.res_redirect_ok by assumption.
    split; split; try tauto.
    intros H. symmetry in H. now apply next_is_not_an_answer in H.
  - apply JSFacts.strict_ne_false in Hproto.
    split; split; try tauto.
    intros H. now apply next_is_not_an_answer in H.
Qed.

Lemma staging_passes_https_only_witness :
  let env : gmap string string := {[ "NODE_ENV" := "review" ]} in
  forceDomainSSL env (via_proxy "pr-12.herokuapp.com" "https" "/") fresh
    = next fresh /\
  forceDomainSSL env (via_proxy "pr-12.herokuapp.com" "HTTPS" "/") fresh
    = Ok tt (redirected "https://pr-12.herokuapp.com/" fresh).
Proof.
  intros env. split.
  - apply (staging_passes_https_only env
             (via_proxy "pr-12.herokuapp.com" "https" "/") fresh);
      [left; reflexivity | reflexivity | reflexivity].
  - apply (staging_passes_https_only env
             (via_proxy "pr-12.herokuapp.com" "HTTPS" "/") fresh);
      [left; reflexivity | reflexivity | discriminate].
Defined.

(** X14: in production mode a request for the public domain that does not
    come over HTTPS, the public domain being set and not the app domain, is
    logged as "Insecure request to {public domain}" and answered with a 302
    redirect to https://{public domain}{original url}; the next handler is
    not called. *)
Theorem insecure_public_domain_is_logged_and_redirected env req w pub :
  NODE_ENV env = Some "production" ->
  PUBLIC_DOMAIN env = Some pub -> pub <> "" ->
  APP_DOMAIN env <> Some pub ->
  headers req !! "host" = Some pub ->
  req_header req "x-forwarded-proto" <> Some "https" ->
  headersSent w = false ->
  forceDomainSSL env req w =
    Ok tt (redirected ("https://" ++ pub ++ originalUrl req)
             (add_log ("Insecure request to " ++ pub) w)).
Proof.
  intros Henv Hp Hpne Happ Hhost Hproto Hw.
  rewrite (MiddlewareFacts.forceDomainSSL_production _ _ Henv).
  assert (Ha : isAppDomainOnProduction env req = false).
  { apply not_true_is_false. rewrite isAppDomainOnProduction_iff.
    intros (_ & _ & H). congruence. }
  assert (Hn : isNonSecurePublicDomainOnProduction env req = true).
  { apply isNonSecurePublicDomainOnProduction_iff. rewrite Hp.
    repeat split; congruence. }
  rewrite Ha, Hn, Hp, Hhost. unfold bind, logger_info.
  now rewrite MiddlewareFacts.res_redirect_ok by assumption.
Qed.

Lemma insecure_public_domain_is_logged_and_redirected_witness :
  exists w',
    forceDomainSSL production_env
      (via_proxy "api.example.com" "http" "/v1/keys") fresh = Ok tt w' /\
    logged w' = ["Insecure request to api.example.com"] /\
    reply w' = Some (Redirect "https://api.example.com/v1/keys") /\
    statusCode w' = 302%Z /\ nextCalls w' = 0.
Proof.
  eexists. split.
  - apply (insecure_public_domain_is_logged_and_redirected production_env
             (via_proxy "api.example.com" "http" "/v1/keys") fresh
             "api.example.com");
      reflexivity || discriminate.
  - repeat split.
Defined.

(** X15: in production mode a request that comes over HTTPS is passed on
    unless its host is the app domain; so the address a redirect points to,
    asked for over HTTPS, is not redirected again when the public domain
    differs from the app domain. *)
Theorem production_passes_https_off_the_app_domain env req w :
  NODE_ENV env = Some "production" ->
  headers req !! "host" <> APP_DOMAIN env ->
  req_header req "x-forwarded-proto" = Some "https" ->
  forceDomainSSL env req w = next w.
Proof.
  intros Henv Hhost Hproto.
  rewrite (MiddlewareFacts.forceDomainSSL_production _ _ Henv).
  assert (Ha : isAppDomainOnProduction env req = false).
  { apply not_true_is_false. rewrite isAppDomainOnProduction_iff. tauto. }
  assert (Hn : isNonSecurePublicDomainOnProduction env req = false).
  { apply not_true_is_false. rewrite isNonSecurePublicDomainOnProduction_iff.
    tauto. }
  now rewrite Ha, Hn.
Qed.

Lemma production_passes_https_off_the_app_domain_witness :
  forceDomainSSL production_env
    (via_proxy "api.example.com" "https" "/v1/keys") fresh = next fresh.
Proof.
  apply (production_passes_https_off_the_app_domain production_env
           (via_proxy "api.example.com" "https" "/v1/keys") fresh);
    reflexivity || discriminate.
Defined.

(** X16: when app domain and public domain are set to the same value, not
    empty, every production request for that host is redirected to the same
    host and URL, also when it already came over HTTPS: following the
    redirect leads to the same redirect again. *)
Theorem same_domains_redirect_to_themselves env req w d :
  NODE_ENV env = Some "production" ->
  APP_DOMAIN env = Some d -> PUBLIC_DOMAIN env = Some d -> d <> "" ->
  headers req !! "host" = Some d ->
  headersSent w = false ->
  forceDomainSSL env req w =
    Ok tt (redirected ("https://" ++ d ++ originalUrl req) w).
Proof.
  intros Henv Ha Hp Hd Hhost Hw.
  rewrite (MiddlewareFacts.forceDomainSSL_production _ _ Henv).
  rewrite (MiddlewareFacts.isAppDomainOnProduction_true _ _ _ _ Ha Hd Hp Hd Hhost).
  rewrite Hp. now apply MiddlewareFacts.res_redirect_ok.
Qed.

Lemma same_domains_redirect_to_themselves_witness :
  let env : gmap string string :=
    {[ "NODE_ENV" := "production"; "APP_DOMAIN" := "api.example.com";
       "PUBLIC_DOMAIN" := "api.example.com" ]} in
  forceDomainSSL env (via_proxy "api.example.com" "https" "/v1/keys") fresh =
    Ok tt (redirected "https://api.example.com/v1/keys" fresh).
Proof.
  intros env.
  apply (same_domains_redirect_to_themselves env
           (via_proxy "api.example.com" "https" "/v1/keys") fresh
           "api.example.com");
    reflexivity || discriminate.
Defined.

(** X17: a public domain that is missing from the environment is not the
    empty string, so the production test for the app domain is not switched
    off: a request whose host header equals the app domain (both may be
    missing) is redirected to the host "undefined". *)
Theorem missing_public_domain_redirects_to_undefined env req w :
  NODE_ENV env = Some "production" ->
  PUBLIC_DOMAIN env = None ->
  APP_DOMAIN env <> Some "" ->
  headers req !! "host" = APP_DOMAIN env ->
  headersSent w = false ->
  forceDomainSSL env req w =
    Ok tt (redirected ("https://undefined" ++ originalUrl req) w).
Proof.
  intros Henv Hp Ha Hhost Hw.
  rewrite (MiddlewareFacts.forceDomainSSL_production _ _ Henv).
  assert (Happ : isAppDomainOnProduction env req = true).
  { apply isAppDomainOnProduction_iff. rewrite Hp. now repeat split. }
  rewrite Happ, Hp. now apply MiddlewareFacts.res_redirect_ok.
Qed.

Lemma missing_public_domain_redirects_to_undefined_witness :
  let env : gmap string string :=
    {[ "NODE_ENV" := "production"; "APP_DOMAIN" := "api.herokuapp.com" ]} in
  forceDomainSSL env (via_proxy "api.herokuapp.com" "https" "/v1/keys") fresh =
    Ok tt (redirected "https://undefined/v1/keys" fresh).
Proof.
  intros env.
  apply (missing_public_domain_redirects_to_undefined env
           (via_proxy "api.herokuapp.com" "https" "/v1/keys") fresh);
    reflexivity || discriminate.
Defined.

(** X18: the two production tests hold together only when the app domain and
    the public domain are the same value; otherwise at most one redirect of
    the production case applies to a request. *)
Theorem production_tests_overlap_on_equal_domains env req :
  isAppDomainOnProduction env req = true ->
  isNonSecurePublicDomainOnProduction env req = true ->
  APP_DOMAIN env = PUBLIC_DOMAIN env.
Proof.
  rewrite isAppDomainOnProduction_iff, isNonSecurePublicDomainOnProduction_iff.
  intros (_ & _ & Ha) (_ & Hp & _). congruence.
Qed.

Lemma production_tests_overlap_on_equal_domains_witness :
  let env : gmap string string :=
    {[ "APP_DOMAIN" := "api.example.com"; "PUBLIC_DOMAIN" := "api.example.com" ]} in
  APP_DOMAIN env = PUBLIC_DOMAIN env.
Proof.
  intros env.
  apply (production_tests_overlap_on_equal_domains env
           (via_proxy "api.example.com" "http" "/"));
    reflexivity.
Defined.

Lemma existsb_path_In (paths : list string) (p : string) :
  existsb (fun q => String.eqb q p) paths = true <-> In p paths.
Proof.
  rewrite existsb_exists. split.
  - intros (q & Hin & Heq). now apply String.eqb_eq in Heq as <-.
  - intros Hin. exists p. split; [assumption | apply String.eqb_refl].
Qed.

(** X19: [unless] skips the wrapped middleware, and calls the next handler,
    exactly for the requests whose path is equal to one of the listed paths;
    for every other request it is the wrapped middleware; and a wrapper
    around a wrapper is one wrapper over both lists. *)
Theorem unless_excludes_listed_paths middleware paths req :
  (In (path req) paths -> unless middleware paths req = next) /\
  (~ In (path req) paths -> unless middleware paths req = middleware req) /\
  (forall paths',
     unless (unless middleware paths) paths' req =
     unless middleware (paths' ++ paths) req).
Proof.
  unfold unless. repeat split.
  - intros Hin. now apply existsb_path_In in Hin as ->.
  - intros Hout. destruct (existsb _ paths) eqn:H; [| reflexivity].
    now apply existsb_path_In in H.
  - intros paths'. rewrite existsb_app.
    now destruct (existsb _ paths').
Qed.

Lemma unless_excludes_listed_paths_witness :
  unless answer_ok ["/user/login"; "/user/register"]
    (get None "/user/register" "" None) fresh = next fresh /\
  unless answer_ok ["/user/login"; "/user/register"]
    (get None "/user/register/" "" None) fresh
    = Ok tt (set_reply (Body "ok") fresh).
Proof.
  split.
  - rewrite (proj1 (unless_excludes_listed_paths answer_ok
                      ["/user/login"; "/user/register"]
                      (get None "/user/register" "" None)));
      [reflexivity |].
    right. left. reflexivity.
  - rewrite (proj1 (proj2 (unless_excludes_listed_paths answer_ok
                             ["/user/login"; "/user/register"]
                             (get None "/user/register/" "" None))));
      [reflexivity |].
    intros [H | [H | []]]; discriminate H.
Defined.

(** X20: on a response not yet sent [middlewareSecurity] sets the header
    X-XSS-Protection to "1; mode=block": read back under any spelling of the
    name it has that value, whatever was set before under any spelling; the
    headers of every other name, the status and the log stay as they are,
    nothing is sent and the next handler is called once.  On a response
    already sent it throws before the next handler is called. *)
Theorem middlewareSecurity_sets_the_header req w :
  (headersSent w = false ->
   exists w',
     middlewareSecurity req w = Ok tt w' /\
     (forall name : string,
        res_get w' name =
          if String.eqb (JSString.to_lower name) "x-xss-protection"
          then Some "1; mode=block"
          else res_get w name) /\
     statusCode w' = statusCode w /\ logged w' = logged w /\
     reply w' = None /\ nextCalls w' = S (nextCalls w)) /\
  (headersSent w = true ->
   middlewareSecurity req w = Throw ERR_HTTP_HEADERS_SENT w).
Proof.
  unfold middlewareSecurity, bind. split; intros Hw.
  - rewrite MiddlewareFacts.res_set_ok by assumption. eexists.
    split; [reflexivity |]. unfold res_get. simpl. repeat split.
    + intros name.
      change (JSString.to_lower "X-XSS-Protection") with "x-xss-protection".
      destruct (String.eqb_spec (JSString.to_lower name) "x-xss-protection")
        as [-> | Hne].
      * apply lookup_insert_eq.
      * apply lookup_insert_ne. intros Heq. apply Hne. symmetry. exact Heq.
    + unfold headersSent in Hw. now destruct (reply w).
  - unfold res_set. now rewrite Hw.
Qed.

Lemma middlewareSecurity_sets_the_header_witness :
  res_get (set_resHeader "x-xss-protection" "0" fresh) "X-XSS-Protection"
    = Some "0" /\
  (exists w',
     middlewareSecurity (get None "/" "" None)
       (set_resHeader "x-xss-protection" "0" fresh) = Ok tt w' /\
     res_get w' "x-xss-protection" = Some "1; mode=block" /\
     res_get w' "X-XSS-Protection" = Some "1; mode=block" /\
     nextCalls w' = 1) /\
  middlewareSecurity (get None "/" "" None) (set_reply (Body "") fresh)
    = Throw ERR_HTTP_HEADERS_SENT (set_reply (Body "") fresh).
Proof.
  split; [reflexivity |]. split.
  - destruct (proj1 (middlewareSecurity_sets_the_header (get None "/" "" None)
                       (set_resHeader "x-xss-protection" "0" fresh)) eq_refl)
      as (w' & H & Hget & _ & _ & _ & Hn).
    exists w'. split; [exact H |]. split; [| split].
    + exact (Hget "x-xss-protection").
    + exact (Hget "X-XSS-Protection").
    + exact Hn.
  - apply (middlewareSecurity_sets_the_header (get None "/" "" None)
             (set_reply (Body "") fresh)).
    reflexivity.
Defined.

End MiddlewareMore.
